(** * Wizard-of-Oz relay: the event handlers of [app.py] and their audit log

    A shallow embedding of the Socket.IO handlers of [src/app.py]
    ([log_row], [on_join_wizard], [handle_trigger], [on_participant_ack],
    [on_participant_input], [on_participant_confirm]) as state-passing
    functions over a world made of the log file, the connection registry
    and the trace of observable effects, followed by the properties of the
    relay proved on that embedding. *)

From Stdlib Require Import ZArith Lia Ascii String List.
From stdpp Require Import gmap strings list fin_maps.

Local Open Scope Z_scope.

(** ** Python strings *)

Module PyString.

Definition LF : ascii := "010"%char.
Definition dquote : ascii := "034"%char.

(** The line feed and the double quote, as one-character strings. *)
Definition nl : string := String LF EmptyString.
Definition q : string := String dquote EmptyString.

(** [str.isspace] on the ASCII range: tab, line feed, vertical tab, form
    feed, carriage return, the four separators 0x1c-0x1f and space. *)
Definition is_space (c : ascii) : bool :=
  match N_of_ascii c with
  | 9 | 10 | 11 | 12 | 13 | 28 | 29 | 30 | 31 | 32 => true
  | _ => false
  end%N.

Fixpoint lstrip (s : string) : string :=
  match s with
  | EmptyString => EmptyString
  | String c s' => if is_space c then lstrip s' else s
  end.

Fixpoint rstrip (s : string) : string :=
  match s with
  | EmptyString => EmptyString
  | String c s' =>
      match rstrip s' with
      | EmptyString => if is_space c then EmptyString else String c EmptyString
      | t => String c t
      end
  end.

(** [s.strip()] *)
Definition strip (s : string) : string := lstrip (rstrip s).

Definition is_empty (s : string) : bool :=
  match s with EmptyString => true | String _ _ => false end.

Fixpoint has_newline (s : string) : bool :=
  match s with
  | EmptyString => false
  | String c s' => if Ascii.eqb c LF then true else has_newline s'
  end.

(** The lines of a text file: every maximal run of characters closed by a
    line feed, and the unterminated rest when there is one. *)
Fixpoint lines (s : string) : list string :=
  match s with
  | EmptyString => []
  | String c s' =>
      if Ascii.eqb c LF then EmptyString :: lines s'
      else match lines s' with
           | [] => [String c EmptyString]
           | l :: ls => String c l :: ls
           end
  end.

(** [sep.join(fields)] *)
Definition join (sep : string) (fields : list string) : string :=
  String.concat sep fields.

End PyString.
Import PyString.

(** ** Python values, as far as the handlers observe them

    The handlers format a value ([str], f-strings), test its truth value
    ([x or default]) and pass it on unchanged.  A value that is neither
    [None] nor a string is therefore represented by its [str] rendering and
    its truth value. *)

Inductive pyval : Type :=
  | PyNone
  | PyStr (s : string)
  | PyObj (shown : string) (truthy : bool).

Definition py_str (v : pyval) : string :=
  match v with
  | PyNone => "None"
  | PyStr s => s
  | PyObj shown _ => shown
  end.

Definition py_bool (v : pyval) : bool :=
  match v with
  | PyNone => false
  | PyStr s => negb (is_empty s)
  | PyObj _ t => t
  end.

(** [x or d] *)
Definition py_or (x d : pyval) : pyval := if py_bool x then x else d.

(** [d.get(k)] and [d.get(k, dflt)] on a dict with string keys. *)
Definition dict_get (d : gmap string pyval) (k : string) : pyval :=
  default PyNone (d !! k).

Definition dict_get_default (d : gmap string pyval) (k : string) (dflt : pyval) : pyval :=
  default dflt (d !! k).

(** ** [datetime] and [isoformat] *)

Record datetime : Type := Datetime {
  year : Z; month : Z; day : Z;
  hour : Z; minute : Z; second : Z; microsecond : Z
}.

Definition digit (n : Z) : ascii := ascii_of_N (Z.to_N (48 + n mod 10)).

Definition pad2 (n : Z) : string :=
  String (digit (n / 10)) (String (digit n) EmptyString).

Definition pad4 (n : Z) : string :=
  String (digit (n / 1000)) (String (digit (n / 100)) (pad2 n)).

Definition pad6 (n : Z) : string :=
  String (digit (n / 100000)) (String (digit (n / 10000)) (pad4 n)).

(** [datetime.isoformat()] of a naive datetime: the fraction is printed
    only when [microsecond] is not zero. *)
Definition isoformat (d : datetime) : string :=
  pad4 (year d) +:+ "-" +:+ pad2 (month d) +:+ "-" +:+ pad2 (day d) +:+ "T"
  +:+ pad2 (hour d) +:+ ":" +:+ pad2 (minute d) +:+ ":" +:+ pad2 (second d)
  +:+ (if microsecond d =? 0 then EmptyString else "." +:+ pad6 (microsecond d)).

(** ** The world the handlers run in *)

Inductive exn : Type := OSError | KeyError.

Inductive result (A : Type) : Type :=
  | Ok (a : A)
  | Raised (e : exn).
Arguments Ok {A} a.
Arguments Raised {A} e.

Inductive mode : Type := ModeW | ModeA.

Inductive audience : Type :=
  | ToSid (sid : string)      (* [emit(...)] inside a handler: the requesting client *)
  | Broadcast                 (* [emit(..., broadcast=True)] *)
  | ToRoom (room : string).   (* [socketio.emit(..., room=...)] *)

Inductive printed : Type :=
  | PText (s : string)
  | PDict (d : gmap string pyval)
  | PExn (e : exn).

Inductive effect : Type :=
  | FOpen (m : mode)
  | FWrite (m : mode) (text : string)
  | Emit (event : string) (data : gmap string pyval) (to : audience)
  | Print (args : list printed).

Record world : Type := World {
  disk : option string;               (* content of LOG_PATH; [None]: no such file *)
  faults : list bool;                 (* outcome of the coming storage operations; [true]: it raises *)
  clock : datetime;                   (* what [datetime.utcnow()] returns *)
  connected : gset string;            (* sids of the live connections *)
  rooms : gmap string (gset string);  (* members of each room *)
  trace : list effect                 (* effects performed so far, oldest first *)
}.

Definition set_disk (c : option string) (w : world) : world :=
  World c (faults w) (clock w) (connected w) (rooms w) (trace w).
Definition set_faults (fs : list bool) (w : world) : world :=
  World (disk w) fs (clock w) (connected w) (rooms w) (trace w).
Definition set_rooms (r : gmap string (gset string)) (w : world) : world :=
  World (disk w) (faults w) (clock w) (connected w) r (trace w).
Definition record (e : effect) (w : world) : world :=
  World (disk w) (faults w) (clock w) (connected w) (rooms w) (trace w ++ [e]).

(** State and exception monad. *)
Definition M (A : Type) : Type := world -> world * result A.

Definition ret {A : Type} (a : A) : M A := fun w => (w, Ok a).

Definition raise {A : Type} (e : exn) : M A := fun w => (w, Raised e).

Definition bind {A B : Type} (m : M A) (k : A -> M B) : M B :=
  fun w =>
    match m w with
    | (w', Ok a) => k a w'
    | (w', Raised e) => (w', Raised e)
    end.

(** [try: body except Exception as e: handler(e)] *)
Definition try_except (body : M unit) (handler : exn -> M unit) : M unit :=
  fun w =>
    match body w with
    | (w', Ok a) => (w', Ok a)
    | (w', Raised e) => handler e w'
    end.

#[global] Instance M_ret : MRet M := @ret.
#[global] Instance M_bind : MBind M := fun A B k m => bind m k.

Definition perform (e : effect) : M unit := fun w => (record e w, Ok tt).

(** ** Storage *)

(** Every storage operation consumes one entry of the fault oracle; an
    exhausted oracle means no further fault. *)
Definition storage_op : M unit :=
  fun w =>
    match faults w with
    | [] => (w, Ok tt)
    | false :: fs => (set_faults fs w, Ok tt)
    | true :: fs => (set_faults fs w, Raised OSError)
    end.

(** [os.path.exists(LOG_PATH)] *)
Definition os_path_exists : M bool :=
  fun w => (w, Ok (match disk w with Some _ => true | None => false end)).

(** [open(LOG_PATH, m, encoding=...)]: mode w creates or truncates the
    file, mode a creates it when it is missing. *)
Definition opened (m : mode) : M mode :=
  fun w =>
    let c := match m with
             | ModeW => EmptyString
             | ModeA => default EmptyString (disk w)
             end in
    (record (FOpen m) (set_disk (Some c) w), Ok m).

Definition py_open (m : mode) : M mode := storage_op ;; opened m.

(** [f.write(text)] *)
Definition written (f : mode) (text : string) : M unit :=
  fun w =>
    (record (FWrite f text) (set_disk (Some (default EmptyString (disk w) +:+ text)) w),
     Ok tt).

Definition f_write (f : mode) (text : string) : M unit := storage_op ;; written f text.

(** ** [log_row] *)

Definition header_text : string :=
  "timestamp,action_type,action_id,description,expected_effect,participant_response,observer_note".

Definition log_row (row : string) : M unit :=
  let header := header_text +:+ nl in
  present ← os_path_exists;
  (if negb present
   then f ← py_open ModeW; f_write f header
   else mret tt) ;;
  f ← py_open ModeA;
  f_write f (row +:+ nl).

(** ** Transport: rooms, emits, prints *)

Definition members (room : string) (w : world) : gset string :=
  default ∅ (rooms w !! room).

(** Modelled from the spec: [join_room] belongs to flask_socketio, which is
    not part of the sources.  Following the registry contract, joining adds
    the connection to the group, which is a set, and fails when the
    connection no longer exists. *)
Definition join_room (room sid : string) : M unit :=
  fun w =>
    if bool_decide (sid ∈ connected w)
    then (set_rooms (<[room := {[sid]} ∪ members room w]> (rooms w)) w, Ok tt)
    else raise KeyError w.

Definition emit (event : string) (data : gmap string pyval) (to : audience) : M unit :=
  perform (Emit event data to).

Definition print (args : list printed) : M unit := perform (Print args).

(** Modelled from the spec: the connections an emit reaches, which the
    transport decides.  A broadcast reaches every connected client, the
    sender included; a room emit reaches the members of the room. *)
Definition recipients (to : audience) (w : world) : gset string :=
  match to with
  | ToSid sid => {[sid]}
  | Broadcast => connected w
  | ToRoom room => members room w
  end.

(** [datetime.utcnow()] *)
Definition utcnow : M datetime := fun w => (w, Ok (clock w)).

(** A dict display [{k1: v1, ...}]. *)
Definition mkdict (kvs : list (string * pyval)) : gmap string pyval := list_to_map kvs.

(** A field the f-strings wrap in double quotes. *)
Definition quoted (s : string) : string := q +:+ s +:+ q.

(** ** The handlers *)

Definition on_join_wizard (sid : string) : M unit :=
  try_except
    (join_room "wizard" sid ;;
     emit "status" (mkdict [("msg", PyStr "joined_wizard"); ("sid", PyStr sid)]) (ToSid sid) ;;
     print [PText ("Socket " +:+ sid +:+ " joined wizard room")])
    (fun e => print [PText "join_wizard error"; PExn e]).

Definition trigger_row (timestamp : string) (data : gmap string pyval) : string :=
  let desc := py_str (dict_get_default data "payload" (PyStr EmptyString)) in
  let note := dict_get_default data "note" (PyStr EmptyString) in
  timestamp +:+ "," +:+ py_str (dict_get data "type") +:+ "," +:+ py_str (dict_get data "id")
  +:+ "," +:+ quoted desc +:+ "," +:+ quoted (py_str note) +:+ ",," +:+ quoted EmptyString.

Definition handle_trigger (sid : string) (data : gmap string pyval) : M unit :=
  now ← utcnow;
  let timestamp := isoformat now +:+ "Z" in
  let row := trigger_row timestamp data in
  log_row (strip row) ;;
  emit "action" data Broadcast ;;
  emit "ack" (mkdict [("status", PyStr "sent"); ("id", dict_get data "id")]) (ToSid sid).

Definition ack_row (timestamp : string) (data : gmap string pyval) : string :=
  timestamp +:+ ",ack," +:+ py_str (dict_get data "id") +:+ "," +:+ quoted "participant ack"
  +:+ "," +:+ quoted EmptyString
  +:+ "," +:+ py_str (dict_get_default data "response" (PyStr EmptyString))
  +:+ "," +:+ quoted (py_str (dict_get_default data "note" (PyStr EmptyString))).

Definition on_participant_ack (sid : string) (data : gmap string pyval) : M unit :=
  now ← utcnow;
  let timestamp := isoformat now +:+ "Z" in
  let row := ack_row timestamp data in
  log_row (strip row) ;;
  print [PText "Participant ack:"; PDict data].

(** The normalised fields of a participant input. *)
Definition input_run_id (payload : gmap string pyval) : pyval :=
  py_or (dict_get payload "runId") (PyStr EmptyString).
Definition input_pid (payload : gmap string pyval) : pyval :=
  py_or (dict_get payload "id") (PyStr EmptyString).
Definition input_ptype (payload : gmap string pyval) : pyval :=
  py_or (dict_get payload "type") (PyStr "participant_input").
Definition input_value (payload : gmap string pyval) : pyval :=
  py_or (dict_get payload "value") (PyStr EmptyString).
Definition input_client_ts (payload : gmap string pyval) : pyval :=
  py_or (dict_get payload "clientTs") (PyStr EmptyString).

Definition input_row (server_ts : string) (payload : gmap string pyval) : string :=
  let run_id := input_run_id payload in
  let pid := input_pid payload in
  let value := input_value payload in
  let client_ts := input_client_ts payload in
  let desc := "run:" +:+ py_str run_id +:+ ";clientTs:" +:+ py_str client_ts in
  server_ts +:+ ",participant_input," +:+ py_str pid +:+ "," +:+ quoted desc
  +:+ "," +:+ quoted EmptyString +:+ "," +:+ py_str value
  +:+ "," +:+ quoted ("runId:" +:+ py_str run_id +:+ ";clientTs:" +:+ py_str client_ts).

Definition input_forward (server_ts : string) (payload : gmap string pyval)
  : gmap string pyval :=
  mkdict [("runId", input_run_id payload); ("id", input_pid payload);
          ("type", input_ptype payload); ("value", input_value payload);
          ("clientTs", input_client_ts payload); ("serverTs", PyStr server_ts)].

Definition input_reply (server_ts : string) (payload : gmap string pyval)
  : gmap string pyval :=
  mkdict [("status", PyStr "received"); ("id", input_pid payload);
          ("serverTs", PyStr server_ts)].

Definition on_participant_input (sid : string) (payload : gmap string pyval) : M unit :=
  now ← utcnow;
  let server_ts := isoformat now +:+ "Z" in
  let row := input_row server_ts payload in
  log_row (strip row) ;;
  try_except
    (emit "participant_input" (input_forward server_ts payload) (ToRoom "wizard"))
    (fun e => print [PText "Emit participant_input failed:"; PExn e]) ;;
  emit "participant_input_ack" (input_reply server_ts payload) (ToSid sid) ;;
  print [PText "Participant input:"; PDict payload].

Definition confirm_pid (data : gmap string pyval) : pyval :=
  py_or (dict_get data "id") (PyStr "confirm").
Definition confirm_response (data : gmap string pyval) : pyval :=
  py_or (dict_get data "response") (PyStr EmptyString).
Definition confirm_note (data : gmap string pyval) : pyval :=
  dict_get_default data "note" (PyStr EmptyString).

Definition confirm_row (timestamp : string) (data : gmap string pyval) : string :=
  timestamp +:+ ",participant_confirm," +:+ py_str (confirm_pid data)
  +:+ "," +:+ quoted "participant confirmed hearing" +:+ "," +:+ quoted EmptyString
  +:+ "," +:+ py_str (confirm_response data)
  +:+ "," +:+ quoted (py_str (confirm_note data)).

Definition confirm_forward (timestamp : string) (data : gmap string pyval)
  : gmap string pyval :=
  mkdict [("id", confirm_pid data); ("type", PyStr "confirm");
          ("value", confirm_response data); ("serverTs", PyStr timestamp)].

Definition on_participant_confirm (sid : string) (data : gmap string pyval) : M unit :=
  now ← utcnow;
  let timestamp := isoformat now +:+ "Z" in
  let row := confirm_row timestamp data in
  log_row (strip row) ;;
  try_except
    (emit "participant_input" (confirm_forward timestamp data) (ToRoom "wizard"))
    (fun e => print [PText "Emit participant_confirm failed:"; PExn e]) ;;
  print [PText "Participant confirm:"; PDict data].

(** The inbound events of the relay and the handler registered for each
    ([@socketio.on]). *)
Inductive inbound : Type :=
  | TriggerAction (data : gmap string pyval)
  | ParticipantAck (data : gmap string pyval)
  | ParticipantInput (payload : gmap string pyval)
  | ParticipantConfirm (data : gmap string pyval).

Definition dispatch (sid : string) (ev : inbound) : M unit :=
  match ev with
  | TriggerAction data => handle_trigger sid data
  | ParticipantAck data => on_participant_ack sid data
  | ParticipantInput payload => on_participant_input sid payload
  | ParticipantConfirm data => on_participant_confirm sid data
  end.

(** The row a handler hands to [log_row], before [strip]. *)
Definition row_of (timestamp : string) (ev : inbound) : string :=
  match ev with
  | TriggerAction data => trigger_row timestamp data
  | ParticipantAck data => ack_row timestamp data
  | ParticipantInput payload => input_row timestamp payload
  | ParticipantConfirm data => confirm_row timestamp data
  end.

(** ** The audit record behind a row

    The header names the seven columns; a record holds the text the
    f-string of a handler puts in each of them. *)

Record AuditRecord : Type := Audit {
  timestamp : string;
  actionType : string;
  actionId : string;
  description : string;
  expectedEffect : string;
  participantResponse : string;
  observerNote : string
}.

Definition render (r : AuditRecord) : string :=
  join "," [timestamp r; actionType r; actionId r; description r;
            expectedEffect r; participantResponse r; observerNote r].

Definition trigger_record (ts : string) (data : gmap string pyval) : AuditRecord :=
  {| timestamp := ts;
     actionType := py_str (dict_get data "type");
     actionId := py_str (dict_get data "id");
     description := quoted (py_str (dict_get_default data "payload" (PyStr EmptyString)));
     expectedEffect := quoted (py_str (dict_get_default data "note" (PyStr EmptyString)));
     participantResponse := EmptyString;
     observerNote := quoted EmptyString |}.

Definition ack_record (ts : string) (data : gmap string pyval) : AuditRecord :=
  {| timestamp := ts;
     actionType := "ack";
     actionId := py_str (dict_get data "id");
     description := quoted "participant ack";
     expectedEffect := quoted EmptyString;
     participantResponse := py_str (dict_get_default data "response" (PyStr EmptyString));
     observerNote := quoted (py_str (dict_get_default data "note" (PyStr EmptyString))) |}.

Definition input_record (ts : string) (payload : gmap string pyval) : AuditRecord :=
  {| timestamp := ts;
     actionType := "participant_input";
     actionId := py_str (input_pid payload);
     description := quoted ("run:" +:+ py_str (input_run_id payload)
                            +:+ ";clientTs:" +:+ py_str (input_client_ts payload));
     expectedEffect := quoted EmptyString;
     participantResponse := py_str (input_value payload);
     observerNote := quoted ("runId:" +:+ py_str (input_run_id payload)
                             +:+ ";clientTs:" +:+ py_str (input_client_ts payload)) |}.

Definition confirm_record (ts : string) (data : gmap string pyval) : AuditRecord :=
  {| timestamp := ts;
     actionType := "participant_confirm";
     actionId := py_str (confirm_pid data);
     description := quoted "participant confirmed hearing";
     expectedEffect := quoted EmptyString;
     participantResponse := py_str (confirm_response data);
     observerNote := quoted (py_str (confirm_note data)) |}.

Definition record_of (ts : string) (ev : inbound) : AuditRecord :=
  match ev with
  | TriggerAction data => trigger_record ts data
  | ParticipantAck data => ack_record ts data
  | ParticipantInput payload => input_record ts payload
  | ParticipantConfirm data => confirm_record ts data
  end.

(** ** What a successful append leaves behind *)

(** The storage operations [log_row] performs: two more when the file
    has to be created. *)
Definition log_ops (w : world) : nat :=
  match disk w with None => 4%nat | Some _ => 2%nat end.

(** [log_row] succeeds exactly when none of its operations faults. *)
Definition log_row_ok (w : world) : bool :=
  forallb negb (take (log_ops w) (faults w)).

Definition log_setup (w : world) : list effect :=
  match disk w with
  | None => [FOpen ModeW; FWrite ModeW (header_text +:+ nl)]
  | Some _ => []
  end.

Definition log_base (w : world) : string :=
  default (header_text +:+ nl) (disk w).

Definition logged (row : string) (w : world) : world :=
  World (Some (log_base w +:+ row +:+ nl)) (drop (log_ops w) (faults w))
        (clock w) (connected w) (rooms w)
        (trace w ++ log_setup w ++ [FOpen ModeA; FWrite ModeA (row +:+ nl)]).

Definition is_emit (e : effect) : bool :=
  match e with Emit _ _ _ => true | _ => false end.

Definition is_append (e : effect) : bool :=
  match e with FWrite ModeA _ => true | _ => false end.

Definition is_storage (e : effect) : bool :=
  match e with FOpen _ | FWrite _ _ => true | _ => false end.

Definition is_create (e : effect) : bool :=
  match e with FOpen ModeW | FWrite ModeW _ => true | _ => false end.

(** The emits and the appends among some effects, in order. *)
Definition emits (fx : list effect) : list effect := List.filter is_emit fx.
Definition appends (fx : list effect) : list effect := List.filter is_append fx.

(** The text that appending [rows] one after the other adds to the file. *)
Fixpoint body (rows : list string) : string :=
  match rows with
  | [] => EmptyString
  | row :: rest => row +:+ nl +:+ body rest
  end.

(** The effects performed between two worlds of one run. *)
Definition new_effects (w w' : world) : list effect :=
  drop (length (trace w)) (trace w').

(** [log_row] called on each row in turn. *)
Fixpoint log_all (rows : list string) : M unit :=
  match rows with
  | [] => mret tt
  | row :: rest => log_row row ;; log_all rest
  end.

(** The time stamp a handler computes in world [w]. *)
Definition stamp (w : world) : string := isoformat (clock w) +:+ "Z".

(** What a handler does once its row is logged: the forwarding emit, the
    direct reply and the diagnostic print, in the order of the source. *)
Definition sends (sid ts : string) (ev : inbound) : list effect :=
  match ev with
  | TriggerAction data =>
      [Emit "action" data Broadcast;
       Emit "ack" (mkdict [("status", PyStr "sent"); ("id", dict_get data "id")]) (ToSid sid)]
  | ParticipantAck data =>
      [Print [PText "Participant ack:"; PDict data]]
  | ParticipantInput payload =>
      [Emit "participant_input" (input_forward ts payload) (ToRoom "wizard");
       Emit "participant_input_ack" (input_reply ts payload) (ToSid sid);
       Print [PText "Participant input:"; PDict payload]]
  | ParticipantConfirm data =>
      [Emit "participant_input" (confirm_forward ts data) (ToRoom "wizard");
       Print [PText "Participant confirm:"; PDict data]]
  end.

Definition extend (fx : list effect) (w : world) : world :=
  World (disk w) (faults w) (clock w) (connected w) (rooms w) (trace w ++ fx).

(** Text that ends with a double quote. *)
Definition ends_quoted (s : string) : Prop := exists a, s = a +:+ q.

(** Text whose first character is not white space. *)
Definition starts_solid (s : string) : Prop :=
  exists c t, s = String c t /\ is_space c = false.

Arguments log_row : simpl never.
Arguments strip : simpl never.
Arguments mkdict : simpl never.

(** ** Connection lifecycle *)

(** The Python booleans, as values. *)
Definition PyTrue : pyval := PyObj "True" true.
Definition PyFalse : pyval := PyObj "False" false.

Definition on_connect (sid : string) : M unit :=
  print [PText "Client connected:"; PText sid] ;;
  emit "status" (mkdict [("msg", PyStr "connected"); ("sid", PyStr sid)]) (ToSid sid) ;;
  emit "participant_status" (mkdict [("connected", PyTrue)]) (ToRoom "wizard").

Definition on_disconnect (sid : string) : M unit :=
  print [PText "Client disconnected:"; PText sid] ;;
  emit "participant_status" (mkdict [("connected", PyFalse)]) (ToRoom "wizard").

(** The emits addressed to a room. *)
Definition is_room_emit (e : effect) : bool :=
  match e with Emit _ _ (ToRoom _) => true | _ => false end.

(** A participant input whose value is the number zero. *)
Definition zero_input : gmap string pyval :=
  mkdict [("runId", PyStr "r1"); ("id", PyStr "q1"); ("type", PyStr "choice");
          ("value", PyObj "0" false); ("clientTs", PyStr "t0")].

(** A trigger that carries no id. *)
Definition anonymous_trigger : gmap string pyval :=
  mkdict [("type", PyStr "audio"); ("payload", PyObj "{'volume': 5}" true)].

(** ** Text that ends its last line *)

(** A text is line-terminated when it is empty or ends with a line feed. *)
Fixpoint line_terminated (s : string) : bool :=
  match s with
  | EmptyString => true
  | String c s' =>
      match s' with
      | EmptyString => Ascii.eqb c LF
      | String _ _ => line_terminated s'
      end
  end.

(** Time passing between two events: the next [datetime.utcnow()] returns
    [d]. *)
Definition tick (d : datetime) (w : world) : world :=
  World (disk w) (faults w) d (connected w) (rooms w) (trace w).

(** ** Sample worlds and events *)

Definition sample_clock : datetime := Datetime 2024 5 17 9 30 15 123456.

(** No log file yet, storage in order, clients A and B connected. *)
Definition fresh_world : world := World None [] sample_clock {["A"; "B"]} ∅ [].

(** The same world with a storage that fails at the next operation. *)
Definition faulty_world : world := World None [true] sample_clock {["A"; "B"]} ∅ [].

Definition audio_trigger : gmap string pyval :=
  mkdict [("type", PyStr "audio"); ("id", PyStr "overview_01");
          ("payload", PyObj "{'volume': 5}" true); ("note", PyStr EmptyString)].

Definition noted_trigger : gmap string pyval :=
  mkdict [("type", PyStr "audio"); ("id", PyStr "overview_01");
          ("payload", PyObj "{'volume': 5}" true); ("note", PyStr "look left")].

Definition hearing_confirm : gmap string pyval :=
  mkdict [("id", PyStr "confirm_hearing"); ("response", PyStr "confirmed")].

Definition choice_input : gmap string pyval :=
  mkdict [("runId", PyStr "r1"); ("id", PyStr "q1"); ("type", PyStr "choice");
          ("value", PyStr "yes"); ("clientTs", PyStr "t0")].

(** * Properties *)

(** ** Strings *)

Section Strings.

Lemma append_nil (b : string) : EmptyString +:+ b = b.
Proof. reflexivity. Qed.

Lemma append_cons (x : ascii) (a b : string) : String x a +:+ b = String x (a +:+ b).
Proof. reflexivity. Qed.

Lemma append_assoc (a b c : string) : (a +:+ b) +:+ c = a +:+ (b +:+ c).
Proof.
  induction a as [|x a IH]; [reflexivity |].
  rewrite !append_cons. now rewrite IH.
Qed.

Lemma is_space_digit (n : Z) : is_space (digit n) = false.
Proof.
  unfold digit.
  assert (H : 0 <= n mod 10 < 10) by (apply Z.mod_pos_bound; lia).
  assert (C : n mod 10 = 0 \/ n mod 10 = 1 \/ n mod 10 = 2 \/ n mod 10 = 3 \/
              n mod 10 = 4 \/ n mod 10 = 5 \/ n mod 10 = 6 \/ n mod 10 = 7 \/
              n mod 10 = 8 \/ n mod 10 = 9) by lia.
  repeat (destruct C as [C | C]; [rewrite C; reflexivity |]).
  rewrite C; reflexivity.
Qed.

Lemma rstrip_quote (a : string) : rstrip (a +:+ q) = a +:+ q.
Proof.
  induction a as [|x a IH]; [reflexivity |].
  rewrite append_cons. simpl. rewrite IH.
  destruct a; reflexivity.
Qed.

Lemma ends_quoted_quoted (s : string) : ends_quoted (quoted s).
Proof. exists (q +:+ s). unfold quoted. now rewrite append_assoc. Qed.

Lemma ends_quoted_app (a b : string) : ends_quoted b -> ends_quoted (a +:+ b).
Proof. intros [c ->]. exists (a +:+ c). now rewrite append_assoc. Qed.

Lemma starts_solid_app (a b : string) : starts_solid a -> starts_solid (a +:+ b).
Proof. intros (c & t & -> & H). exists c, (t +:+ b). split; [reflexivity | exact H]. Qed.

Lemma starts_solid_isoformat (d : datetime) : starts_solid (isoformat d).
Proof.
  unfold isoformat, pad4. rewrite append_cons.
  eexists _, _. split; [reflexivity | apply is_space_digit].
Qed.

Lemma strip_solid (s : string) : starts_solid s -> ends_quoted s -> strip s = s.
Proof.
  intros (c & t & Hs & Hc) [a Ha]. unfold strip.
  rewrite Ha, rstrip_quote, <- Ha, Hs. simpl. now rewrite Hc.
Qed.

Lemma row_ends_quoted (ts : string) (ev : inbound) : ends_quoted (row_of ts ev).
Proof.
  destruct ev; simpl;
    unfold trigger_row, ack_row, input_row, confirm_row;
    repeat (first [apply ends_quoted_quoted | apply ends_quoted_app]).
Qed.

Lemma row_starts_solid (w : world) (ev : inbound) : starts_solid (row_of (stamp w) ev).
Proof.
  destruct ev; simpl;
    unfold trigger_row, ack_row, input_row, confirm_row, stamp;
    do 2 apply starts_solid_app; apply starts_solid_isoformat.
Qed.

(** [row.strip()] leaves the row of every handler as it is. *)
Lemma strip_row (w : world) (ev : inbound) :
  strip (row_of (stamp w) ev) = row_of (stamp w) ev.
Proof. apply strip_solid; [apply row_starts_solid | apply row_ends_quoted]. Qed.

(** The f-string of every handler is the comma-joined record. *)
Lemma row_of_render (ts : string) (ev : inbound) : row_of ts ev = render (record_of ts ev).
Proof.
  destruct ev; unfold render, join; simpl;
    unfold trigger_row, ack_row, input_row, confirm_row;
    rewrite ?append_assoc, ?append_cons, ?append_nil; reflexivity.
Qed.

End Strings.

(** ** [log_row] *)

Section LogRow.

Ltac storage_cases w :=
  destruct w as [d fs cl cn rm tr];
  destruct d as [c|];
  destruct fs as [|[|] [|[|] [|[|] [|[|] fs]]]].

Ltac run_storage :=
  lazy beta iota zeta delta
    [log_row py_open f_write os_path_exists storage_op opened written
     mbind M_bind bind mret M_ret ret record set_disk set_faults
     logged log_base log_setup log_ops default from_option id negb drop
     disk faults clock connected rooms trace fst snd].

(** A fault-free [log_row] creates the file with its header when it is
    missing and appends the row as one write. *)
Lemma log_row_ok_spec (row : string) (w : world) :
  log_row_ok w = true -> log_row row w = (logged row w, Ok tt).
Proof.
  storage_cases w; intros H; try discriminate H;
    run_storage; rewrite <- ?app_assoc; reflexivity.
Qed.

(** When one of its operations faults, [log_row] raises. *)
Lemma log_row_fail (row : string) (w : world) :
  log_row_ok w = false -> snd (log_row row w) = Raised OSError.
Proof.
  storage_cases w; intros H; try discriminate H; run_storage; reflexivity.
Qed.

(** Whatever happens, [log_row] only touches the storage. *)
Lemma log_row_effects (row : string) (w : world) :
  exists fx,
    trace (fst (log_row row w)) = trace w ++ fx /\
    forallb is_storage fx = true /\
    connected (fst (log_row row w)) = connected w /\
    rooms (fst (log_row row w)) = rooms w /\
    clock (fst (log_row row w)) = clock w.
Proof.
  storage_cases w; run_storage; eexists;
    (split; [rewrite <- ?app_assoc;
             first [reflexivity | symmetry; apply app_nil_r] |]);
    repeat split; reflexivity.
Qed.

End LogRow.

(** ** The handlers, step by step *)

Section Handlers.

Ltac step_handler :=
  cbv beta iota zeta delta
    [dispatch handle_trigger on_participant_ack on_participant_input
     on_participant_confirm try_except emit print perform
     mbind M_bind bind utcnow row_of stamp].

(** Every handler starts by logging its row. *)
Lemma dispatch_fail (sid : string) (ev : inbound) (w : world) :
  log_row_ok w = false ->
  dispatch sid ev w = (fst (log_row (row_of (stamp w) ev) w), Raised OSError).
Proof.
  intros H. pose proof (log_row_fail (row_of (stamp w) ev) w H) as F.
  pose proof (strip_row w ev) as S. revert S F.
  destruct ev; step_handler; intros S F;
    rewrite S; destruct (log_row _ w) as [w1 r];
    cbv beta iota delta [fst snd] in F |- *; subst r; reflexivity.
Qed.

(** With a successful append, a handler logs its row and then performs
    its sends. *)
Lemma dispatch_ok (sid : string) (ev : inbound) (w : world) :
  log_row_ok w = true ->
  dispatch sid ev w =
    (extend (sends sid (stamp w) ev) (logged (row_of (stamp w) ev) w), Ok tt).
Proof.
  intros H. pose proof (strip_row w ev) as S. revert S.
  destruct ev; step_handler; intros S;
    rewrite S, (log_row_ok_spec _ _ H);
    cbv beta iota delta [extend record logged sends disk faults clock connected
                         rooms trace];
    rewrite <- ?app_assoc; reflexivity.
Qed.

End Handlers.

(** ** Effects of one run *)

Section Effects.

Lemma new_effects_app (w w' : world) (fx : list effect) :
  trace w' = trace w ++ fx -> new_effects w w' = fx.
Proof. intros E. unfold new_effects. rewrite E. apply drop_app_length. Qed.

Lemma new_effects_logged (row : string) (fx : list effect) (w : world) :
  new_effects w (extend fx (logged row w)) =
    log_setup w ++ [FOpen ModeA; FWrite ModeA (row +:+ nl)] ++ fx.
Proof.
  apply new_effects_app. unfold extend, logged. cbn [trace].
  now rewrite <- !app_assoc.
Qed.

Lemma disk_logged (row : string) (fx : list effect) (w : world) :
  disk (extend fx (logged row w)) = Some (log_base w +:+ row +:+ nl).
Proof. reflexivity. Qed.

Lemma log_setup_quiet (w : world) :
  forallb (fun e => negb (is_emit e) && negb (is_append e)) (log_setup w) = true.
Proof. unfold log_setup. destruct (disk w); reflexivity. Qed.

Lemma sends_no_append (sid ts : string) (ev : inbound) :
  forallb (fun e => negb (is_append e)) (sends sid ts ev) = true.
Proof. destruct ev; reflexivity. Qed.

Lemma emits_logged (row : string) (fx : list effect) (w : world) :
  emits (new_effects w (extend fx (logged row w))) = emits fx.
Proof.
  rewrite new_effects_logged. unfold emits, log_setup.
  rewrite !List.filter_app. destruct (disk w); reflexivity.
Qed.

Lemma appends_logged (row : string) (fx : list effect) (w : world) :
  appends (new_effects w (extend fx (logged row w))) =
    FWrite ModeA (row +:+ nl) :: appends fx.
Proof.
  rewrite new_effects_logged. unfold appends, log_setup.
  rewrite !List.filter_app. destruct (disk w); reflexivity.
Qed.

End Effects.

(** ** The relay *)

(** C1. Every inbound event of the relay (trigger_action, participant_ack,
    participant_input, participant_confirm) whose append succeeds returns
    normally, grows the log by exactly one record (after the header when the
    file had to be created), and performs that single append before any emit:
    what precedes it contains neither an emit nor an append, what follows it
    contains no further append. *)
Theorem relay_logs_once_before_forwarding (sid : string) (ev : inbound) (w : world) :
  log_row_ok w = true ->
  exists w' pre post,
    dispatch sid ev w = (w', Ok tt) /\
    disk w' = Some (log_base w +:+ render (record_of (stamp w) ev) +:+ nl) /\
    new_effects w w' =
      pre ++ FWrite ModeA (render (record_of (stamp w) ev) +:+ nl) :: post /\
    forallb (fun e => negb (is_emit e) && negb (is_append e)) pre = true /\
    forallb (fun e => negb (is_append e)) post = true.
Proof.
  intros H. rewrite (dispatch_ok sid ev w H), <- row_of_render.
  exists (extend (sends sid (stamp w) ev) (logged (row_of (stamp w) ev) w)).
  exists (log_setup w ++ [FOpen ModeA]), (sends sid (stamp w) ev).
  split; [reflexivity |]. split; [apply disk_logged |].
  split; [rewrite new_effects_logged; now rewrite <- app_assoc |].
  split; [| apply sends_no_append].
  rewrite forallb_app, log_setup_quiet. reflexivity.
Qed.

Lemma relay_logs_once_before_forwarding_witness :
  log_row_ok fresh_world = true /\
  exists w' pre post,
    dispatch "A" (TriggerAction audio_trigger) fresh_world = (w', Ok tt) /\
    disk w' = Some (log_base fresh_world
                    +:+ render (record_of (stamp fresh_world) (TriggerAction audio_trigger))
                    +:+ nl) /\
    new_effects fresh_world w' =
      pre ++ FWrite ModeA (render (record_of (stamp fresh_world)
                                     (TriggerAction audio_trigger)) +:+ nl) :: post /\
    forallb (fun e => negb (is_emit e) && negb (is_append e)) pre = true /\
    forallb (fun e => negb (is_append e)) post = true.
Proof.
  split; [reflexivity |].
  apply (relay_logs_once_before_forwarding "A" (TriggerAction audio_trigger) fresh_world).
  reflexivity.
Defined.

(** C2, as the spec states it, fails: with a storage that faults, the
    trigger handler does not return normally, so nothing is forwarded. *)
Lemma failed_append_is_not_survived :
  ~ (forall (sid : string) (ev : inbound) (w : world),
       log_row_ok w = false ->
       exists w',
         dispatch sid ev w = (w', Ok tt) /\
         emits (new_effects w w') = emits (sends sid (stamp w) ev)).
Proof.
  intros C.
  destruct (C "A" (TriggerAction audio_trigger) faulty_world eq_refl) as (w' & E & _).
  rewrite dispatch_fail in E by reflexivity. discriminate E.
Qed.

(** C2, amended. When the append fails, the handler stops with the storage
    error: the only effects of the run are storage operations, so the event
    is not forwarded, no direct reply is sent and nothing reaches a client;
    connections and rooms are left as they were. *)
Theorem failed_append_stops_the_handler (sid : string) (ev : inbound) (w : world) :
  log_row_ok w = false ->
  exists w',
    dispatch sid ev w = (w', Raised OSError) /\
    forallb is_storage (new_effects w w') = true /\
    connected w' = connected w /\
    rooms w' = rooms w.
Proof.
  intros H. rewrite (dispatch_fail sid ev w H).
  destruct (log_row_effects (row_of (stamp w) ev) w) as (fx & T & S & C & R & _).
  eexists. split; [reflexivity |].
  rewrite (new_effects_app _ _ _ T). auto.
Qed.

Lemma failed_append_stops_the_handler_witness :
  log_row_ok faulty_world = false /\
  exists w',
    dispatch "A" (TriggerAction audio_trigger) faulty_world = (w', Raised OSError) /\
    forallb is_storage (new_effects faulty_world w') = true /\
    connected w' = connected faulty_world /\
    rooms w' = rooms faulty_world.
Proof.
  split; [reflexivity |].
  apply (failed_append_stops_the_handler "A" (TriggerAction audio_trigger) faulty_world).
  reflexivity.
Defined.

(** ** Fields and defaults *)

Section Fields.

Lemma dict_get_some (d : gmap string pyval) (k : string) (v : pyval) :
  d !! k = Some v -> dict_get d k = v.
Proof. intros E. unfold dict_get. now rewrite E. Qed.

Lemma py_or_str (i : string) : py_or (PyStr i) (PyStr EmptyString) = PyStr i.
Proof. destruct i; reflexivity. Qed.

Lemma py_or_solid (i : string) (d : pyval) :
  i <> EmptyString -> py_or (PyStr i) d = PyStr i.
Proof. destruct i; [congruence | reflexivity]. Qed.

End Fields.

Ltac dict_lookups :=
  rewrite ?lookup_delete_eq, ?lookup_insert_eq, ?lookup_delete_ne, ?lookup_insert_ne
    by (intro; discriminate).

Ltac absent_field :=
  unfold trigger_row, ack_row, input_row, confirm_row, input_forward, confirm_forward,
    input_run_id, input_pid, input_ptype, input_value, input_client_ts,
    confirm_pid, confirm_response, confirm_note, dict_get, dict_get_default,
    mkdict, list_to_map;
  cbn [foldr uncurry fst snd];
  dict_lookups; reflexivity.

(** C3: the code departs from the claim.  The f-string of [handle_trigger]
    puts the note in the fifth column, which the header calls
    expected_effect, and leaves the seventh, observer_note, empty; the run on
    a trigger carrying the note [look left] shows it in the file. *)
Theorem trigger_note_in_expected_effect_column :
  (forall (ts : string) (data : gmap string pyval),
     trigger_row ts data =
       render {| timestamp := ts;
                 actionType := py_str (dict_get data "type");
                 actionId := py_str (dict_get data "id");
                 description :=
                   quoted (py_str (dict_get_default data "payload" (PyStr EmptyString)));
                 expectedEffect :=
                   quoted (py_str (dict_get_default data "note" (PyStr EmptyString)));
                 participantResponse := EmptyString;
                 observerNote := quoted EmptyString |}) /\
  disk (fst (handle_trigger "A" noted_trigger fresh_world)) =
    Some (header_text +:+ nl
          +:+ render {| timestamp := "2024-05-17T09:30:15.123456Z";
                        actionType := "audio";
                        actionId := "overview_01";
                        description := quoted "{'volume': 5}";
                        expectedEffect := quoted "look left";
                        participantResponse := EmptyString;
                        observerNote := quoted EmptyString |}
          +:+ nl).
Proof.
  split; [| vm_compute; reflexivity].
  intros ts data. exact (row_of_render ts (TriggerAction data)).
Qed.

(** C10. Whatever a ParticipantConfirm event contains, the record appended
    for it has the fixed description [participant confirmed hearing]. *)
Theorem confirm_description_is_fixed (sid : string) (data : gmap string pyval) (w : world) :
  log_row_ok w = true ->
  exists w',
    on_participant_confirm sid data w = (w', Ok tt) /\
    disk w' = Some (log_base w +:+ render (confirm_record (stamp w) data) +:+ nl) /\
    description (confirm_record (stamp w) data) = quoted "participant confirmed hearing".
Proof.
  intros H.
  pose proof (dispatch_ok sid (ParticipantConfirm data) w H) as E.
  cbn [dispatch] in E. rewrite E. eexists. split; [reflexivity |].
  rewrite disk_logged, row_of_render. split; reflexivity.
Qed.

Lemma confirm_description_is_fixed_witness :
  log_row_ok fresh_world = true /\
  exists w',
    on_participant_confirm "B" hearing_confirm fresh_world = (w', Ok tt) /\
    disk w' = Some (log_base fresh_world
                    +:+ render (confirm_record (stamp fresh_world) hearing_confirm) +:+ nl) /\
    description (confirm_record (stamp fresh_world) hearing_confirm) =
      quoted "participant confirmed hearing".
Proof.
  split; [reflexivity |].
  apply (confirm_description_is_fixed "B" hearing_confirm fresh_world). reflexivity.
Defined.

(** C4, as the spec states it, fails: a ParticipantConfirm without an id is
    not given the empty string, and neither is a ParticipantInput without
    a type. *)
Lemma missing_id_is_not_defaulted_to_empty :
  ~ (forall (ts : string) (data : gmap string pyval),
       (data !! "id" = None ->
        actionId (confirm_record ts data) = EmptyString /\
        confirm_forward ts data !! "id" = Some (PyStr EmptyString)) /\
       (data !! "type" = None ->
        input_forward ts data !! "type" = Some (PyStr EmptyString))).
Proof.
  intros C. destruct (C EmptyString ∅) as [C1 _].
  destruct (C1 (lookup_empty _)) as [A _].
  vm_compute in A. discriminate A.
Qed.

(** C4, amended. An absent note, payload, response, runId, value, clientTs
    or ParticipantInput id is logged and forwarded as the empty string; an
    absent ParticipantConfirm id is logged and forwarded as [confirm]; an
    absent ParticipantInput type is forwarded as [participant_input]; and no
    handler rejects an event: the outcome of a handler is the outcome of its
    append. *)
Theorem absent_fields_take_their_defaults (ts : string) (d : gmap string pyval) :
  let e := PyStr EmptyString in
  (trigger_row ts (delete "note" d) = trigger_row ts (<["note" := e]> d) /\
   trigger_row ts (delete "payload" d) = trigger_row ts (<["payload" := e]> d)) /\
  (ack_row ts (delete "response" d) = ack_row ts (<["response" := e]> d) /\
   ack_row ts (delete "note" d) = ack_row ts (<["note" := e]> d)) /\
  (input_row ts (delete "runId" d) = input_row ts (<["runId" := e]> d) /\
   input_row ts (delete "id" d) = input_row ts (<["id" := e]> d) /\
   input_row ts (delete "value" d) = input_row ts (<["value" := e]> d) /\
   input_row ts (delete "clientTs" d) = input_row ts (<["clientTs" := e]> d) /\
   input_forward ts (delete "runId" d) !! "runId" = Some e /\
   input_forward ts (delete "id" d) !! "id" = Some e /\
   input_forward ts (delete "value" d) !! "value" = Some e /\
   input_forward ts (delete "clientTs" d) !! "clientTs" = Some e) /\
  (confirm_row ts (delete "response" d) = confirm_row ts (<["response" := e]> d) /\
   confirm_row ts (delete "note" d) = confirm_row ts (<["note" := e]> d) /\
   confirm_forward ts (delete "response" d) !! "value" = Some e) /\
  (confirm_row ts (delete "id" d) = confirm_row ts (<["id" := PyStr "confirm"]> d) /\
   confirm_forward ts (delete "id" d) !! "id" = Some (PyStr "confirm")) /\
  (input_row ts (delete "type" d) = input_row ts d /\
   input_forward ts (delete "type" d) !! "type" = Some (PyStr "participant_input")) /\
  (forall (sid : string) (ev : inbound) (w : world),
     snd (dispatch sid ev w) = snd (log_row (row_of (stamp w) ev) w)).
Proof.
  intros e. subst e.
  repeat match goal with |- _ /\ _ => split end; try absent_field.
  intros sid ev w. destruct (log_row_ok w) eqn:H.
  - rewrite (dispatch_ok sid ev w H), (log_row_ok_spec _ w H). reflexivity.
  - rewrite (dispatch_fail sid ev w H), (log_row_fail _ w H). reflexivity.
Qed.

(** C5. For a ParticipantInput whose id is the string [i] and whose append
    succeeds, the handler emits exactly two messages: the forward to the
    operator room and the direct reply to the sender.  The reply carries the
    id [i], and both carry the one time stamp taken at receipt. *)
Theorem input_reply_echoes_id_and_stamp
    (sid : string) (payload : gmap string pyval) (i : string) (w : world) :
  payload !! "id" = Some (PyStr i) ->
  log_row_ok w = true ->
  exists w' fwd reply,
    on_participant_input sid payload w = (w', Ok tt) /\
    emits (new_effects w w') =
      [Emit "participant_input" fwd (ToRoom "wizard");
       Emit "participant_input_ack" reply (ToSid sid)] /\
    reply !! "id" = Some (PyStr i) /\
    reply !! "serverTs" = Some (PyStr (stamp w)) /\
    fwd !! "serverTs" = reply !! "serverTs".
Proof.
  intros Hid H.
  pose proof (dispatch_ok sid (ParticipantInput payload) w H) as E.
  cbn [dispatch] in E. rewrite E.
  eexists _, (input_forward (stamp w) payload), (input_reply (stamp w) payload).
  split; [reflexivity |]. split; [rewrite emits_logged; reflexivity |].
  unfold input_forward, input_reply, input_pid, mkdict, list_to_map.
  cbn [foldr uncurry fst snd].
  rewrite (dict_get_some _ _ _ Hid), py_or_str.
  dict_lookups. repeat split; reflexivity.
Qed.

Lemma input_reply_echoes_id_and_stamp_witness :
  choice_input !! "id" = Some (PyStr "q1") /\
  log_row_ok fresh_world = true /\
  exists w' fwd reply,
    on_participant_input "B" choice_input fresh_world = (w', Ok tt) /\
    emits (new_effects fresh_world w') =
      [Emit "participant_input" fwd (ToRoom "wizard");
       Emit "participant_input_ack" reply (ToSid "B")] /\
    reply !! "id" = Some (PyStr "q1") /\
    reply !! "serverTs" = Some (PyStr (stamp fresh_world)) /\
    fwd !! "serverTs" = reply !! "serverTs".
Proof.
  split; [reflexivity |]. split; [reflexivity |].
  apply (input_reply_echoes_id_and_stamp "B" choice_input "q1" fresh_world); reflexivity.
Defined.

(** ** The log file *)

Section LogFile.

Lemma lines_line (r t : string) :
  has_newline r = false -> lines (r +:+ nl +:+ t) = r :: lines t.
Proof.
  induction r as [|c r IH]; intros H; [reflexivity |].
  rewrite append_cons. cbn [has_newline] in H. cbn [lines].
  destruct (Ascii.eqb c LF); [discriminate H |].
  now rewrite (IH H).
Qed.

Lemma lines_body (rows : list string) :
  forallb (fun r => negb (has_newline r)) rows = true -> lines (body rows) = rows.
Proof.
  induction rows as [|r rows IH]; intros H; [reflexivity |].
  cbn [forallb] in H. apply andb_prop in H as [Hr Hrows].
  cbn [body]. rewrite lines_line by now apply negb_true_iff.
  now rewrite (IH Hrows).
Qed.

Lemma forallb_take_drop (n : nat) (fs : list bool) :
  forallb negb fs = true ->
  forallb negb (take n fs) = true /\ forallb negb (drop n fs) = true.
Proof.
  revert n. induction fs as [|f fs IH]; intros [|n] H; auto.
  cbn [forallb] in H. apply andb_prop in H as [Hf Hfs].
  destruct (IH n Hfs) as [T D]. cbn [take drop forallb].
  rewrite Hf, T. auto.
Qed.

(** On an existing file and a sound storage, appending rows adds their
    text and never opens the file for writing anew. *)
Lemma log_all_existing (rows : list string) (w : world) (c : string) :
  disk w = Some c ->
  forallb negb (faults w) = true ->
  exists w' fx,
    log_all rows w = (w', Ok tt) /\
    disk w' = Some (c +:+ body rows) /\
    trace w' = trace w ++ fx /\
    forallb (fun e => negb (is_create e)) fx = true.
Proof.
  revert w c. induction rows as [|r rows IH]; intros w c D F.
  - exists w, []. cbn [log_all body].
    rewrite app_nil_r, D.
    replace (c +:+ EmptyString) with c
      by (clear; induction c as [|x c IH]; [reflexivity |];
          rewrite append_cons; now rewrite <- IH).
    repeat split; reflexivity.
  - assert (K : log_row_ok w = true)
      by (unfold log_row_ok; apply (forallb_take_drop _ _ F)).
    cbn [log_all]. unfold mbind, M_bind, bind.
    rewrite (log_row_ok_spec r w K).
    destruct (IH (logged r w) (c +:+ r +:+ nl)) as (w' & fx & E & D' & T & Q).
    + unfold logged, log_base. cbn [disk]. now rewrite D.
    + unfold logged. cbn [faults]. apply (forallb_take_drop _ _ F).
    + exists w', ([FOpen ModeA; FWrite ModeA (r +:+ nl)] ++ fx).
      split; [exact E |]. split; [| split].
      * rewrite D'. cbn [body]. now rewrite !append_assoc.
      * rewrite T. unfold logged, log_setup. cbn [trace]. rewrite D.
        now rewrite <- !app_assoc.
      * cbn [forallb app is_create negb andb]. exact Q.
Qed.

End LogFile.

(** A whole run from a missing file on a sound storage: the writer first
    creates the file and writes the header line to it, never opens it for
    writing anew, and the lines of the file are the header followed by the
    rows, as long as no row contains a line break. *)
Theorem log_has_one_header_and_one_line_per_row
    (row : string) (rows : list string) (w : world) :
  disk w = None ->
  forallb negb (faults w) = true ->
  forallb (fun r => negb (has_newline r)) (row :: rows) = true ->
  ~ In header_text (row :: rows) ->
  exists w' c fx,
    log_all (row :: rows) w = (w', Ok tt) /\
    disk w' = Some c /\
    lines c = header_text :: row :: rows /\
    new_effects w w' = FOpen ModeW :: FWrite ModeW (header_text +:+ nl) :: fx /\
    forallb (fun e => negb (is_create e)) fx = true /\
    ~ In header_text (tl (lines c)).
Proof.
  intros D F N U.
  assert (K : log_row_ok w = true)
    by (unfold log_row_ok; apply (forallb_take_drop _ _ F)).
  cbn [log_all]. unfold mbind, M_bind, bind. rewrite (log_row_ok_spec row w K).
  destruct (log_all_existing rows (logged row w) (header_text +:+ nl +:+ row +:+ nl))
    as (w' & fx & E & D' & T & Q).
  - unfold logged, log_base. cbn [disk]. rewrite D. cbn [default from_option id].
    now rewrite !append_assoc.
  - unfold logged. cbn [faults]. apply (forallb_take_drop _ _ F).
  - exists w', ((header_text +:+ nl +:+ row +:+ nl) +:+ body rows),
      ([FOpen ModeA; FWrite ModeA (row +:+ nl)] ++ fx).
    assert (L : lines ((header_text +:+ nl +:+ row +:+ nl) +:+ body rows)
                = header_text :: row :: rows).
    { change (row :: rows) with ([row] ++ rows) in N.
      rewrite forallb_app in N. apply andb_prop in N as [Nr Nrows].
      cbn [forallb] in Nr. rewrite andb_true_r in Nr. apply negb_true_iff in Nr.
      rewrite !append_assoc.
      rewrite lines_line by reflexivity.
      rewrite lines_line by exact Nr.
      now rewrite lines_body. }
    split; [exact E |]. split; [exact D' |]. split; [exact L |].
    split; [| split].
    + apply new_effects_app. rewrite T. unfold logged, log_setup. cbn [trace].
      rewrite D. now rewrite <- !app_assoc.
    + cbn [forallb app is_create negb andb]. exact Q.
    + rewrite L. exact U.
Qed.

Lemma log_has_one_header_and_one_line_per_row_witness :
  disk fresh_world = None /\
  forallb negb (faults fresh_world) = true /\
  forallb (fun r => negb (has_newline r)) ["first"; "second"] = true /\
  ~ In header_text ["first"; "second"] /\
  exists w' c fx,
    log_all ["first"; "second"] fresh_world = (w', Ok tt) /\
    disk w' = Some c /\
    lines c = [header_text; "first"; "second"] /\
    new_effects fresh_world w' = FOpen ModeW :: FWrite ModeW (header_text +:+ nl) :: fx /\
    forallb (fun e => negb (is_create e)) fx = true /\
    ~ In header_text (tl (lines c)).
Proof.
  assert (U : ~ In header_text ["first"; "second"])
    by (intros [A | [A | []]]; discriminate A).
  split; [reflexivity |]. split; [reflexivity |]. split; [reflexivity |].
  split; [exact U |].
  apply (log_has_one_header_and_one_line_per_row "first" ["second"] fresh_world);
    first [reflexivity | exact U].
Defined.

(** ** The operator room *)

Section Room.

Ltac run_join :=
  cbv beta iota zeta delta
    [on_join_wizard try_except join_room raise emit print perform record set_rooms
     mbind M_bind bind disk faults clock connected rooms trace fst snd].

Lemma join_live (sid : string) (w : world) :
  sid ∈ connected w ->
  on_join_wizard sid w =
    (World (disk w) (faults w) (clock w) (connected w)
           (<["wizard" := {[sid]} ∪ members "wizard" w]> (rooms w))
           (trace w ++
              [Emit "status" (mkdict [("msg", PyStr "joined_wizard"); ("sid", PyStr sid)])
                 (ToSid sid);
               Print [PText ("Socket " +:+ sid +:+ " joined wizard room")]]),
     Ok tt).
Proof.
  intros H. run_join. rewrite bool_decide_eq_true_2 by exact H.
  unfold members. cbn [rooms trace]. now rewrite <- app_assoc.
Qed.

Lemma join_defunct (sid : string) (w : world) :
  sid ∉ connected w ->
  on_join_wizard sid w =
    (record (Print [PText "join_wizard error"; PExn KeyError]) w, Ok tt).
Proof.
  intros H. run_join. rewrite bool_decide_eq_false_2 by exact H. reflexivity.
Qed.

Lemma join_again (x : string) (X : gset string) : {[x]} ∪ ({[x]} ∪ X) = {[x]} ∪ X.
Proof. apply set_eq. intros y. rewrite !elem_of_union. tauto. Qed.

Lemma join_member (x : string) (X : gset string) : x ∈ X -> {[x]} ∪ X = X.
Proof.
  intros H. apply set_eq. intros y. rewrite elem_of_union, elem_of_singleton.
  split; [intros [-> | ?]; assumption | auto].
Qed.

Lemma join_fresh (x : string) (X : gset string) :
  x ∉ X -> size ({[x]} ∪ X) = S (size X).
Proof.
  intros H. rewrite size_union, size_singleton; [reflexivity |].
  intros y Hy. rewrite elem_of_singleton in Hy. now subst y.
Qed.

Lemma members_joined (sid : string) (w : world) (H : sid ∈ connected w) :
  members "wizard" (fst (on_join_wizard sid w)) = {[sid]} ∪ members "wizard" w.
Proof.
  rewrite (join_live sid w H). unfold members at 1. cbn [fst rooms].
  now rewrite lookup_insert_eq.
Qed.

End Room.

(** C9. Joining the operator room is idempotent: [on_join_wizard] never
    raises, a second call leaves the members of the room as the first call
    left them, and the size of the room grows, by one, only when a live
    connection that was not yet a member joins.  On a defunct connection the
    failure of the join is caught: the handler returns normally, the room is
    unchanged, and the only effect is the printed diagnostic. *)
Theorem join_wizard_is_idempotent (sid : string) (w : world) :
  let w1 := fst (on_join_wizard sid w) in
  let w2 := fst (on_join_wizard sid w1) in
  snd (on_join_wizard sid w) = Ok tt /\
  snd (on_join_wizard sid w1) = Ok tt /\
  members "wizard" w2 = members "wizard" w1 /\
  size (members "wizard" w2) = size (members "wizard" w1) /\
  members "wizard" w1 =
    (if bool_decide (sid ∈ connected w)
     then {[sid]} ∪ members "wizard" w
     else members "wizard" w) /\
  size (members "wizard" w1) =
    (if bool_decide (sid ∈ connected w /\ sid ∉ members "wizard" w)
     then S (size (members "wizard" w))
     else size (members "wizard" w)) /\
  new_effects w w1 =
    (if bool_decide (sid ∈ connected w)
     then [Emit "status" (mkdict [("msg", PyStr "joined_wizard"); ("sid", PyStr sid)])
             (ToSid sid);
           Print [PText ("Socket " +:+ sid +:+ " joined wizard room")]]
     else [Print [PText "join_wizard error"; PExn KeyError]]).
Proof.
  intros w1 w2. subst w2.
  destruct (decide (sid ∈ connected w)) as [H | H].
  - assert (H1 : sid ∈ connected w1)
      by (subst w1; rewrite (join_live sid w H); exact H).
    assert (M1 : members "wizard" w1 = {[sid]} ∪ members "wizard" w)
      by (subst w1; apply (members_joined sid w H)).
    assert (M2 : members "wizard" (fst (on_join_wizard sid w1)) = members "wizard" w1)
      by (rewrite (members_joined sid w1 H1), M1; apply join_again).
    rewrite M2. rewrite (bool_decide_eq_true_2 _ H).
    split; [subst w1; now rewrite (join_live sid w H) |].
    split; [now rewrite (join_live sid w1 H1) |].
    split; [reflexivity |]. split; [reflexivity |]. split; [exact M1 |].
    split.
    + rewrite M1. case_bool_decide as D.
      * destruct D as [_ D]. now apply join_fresh.
      * f_equal. apply join_member.
        destruct (decide (sid ∈ members "wizard" w)); [assumption | tauto].
    + subst w1. rewrite (join_live sid w H). cbn [fst].
      apply new_effects_app. reflexivity.
  - assert (E : on_join_wizard sid w =
                  (record (Print [PText "join_wizard error"; PExn KeyError]) w, Ok tt))
      by apply (join_defunct sid w H).
    assert (H1 : sid ∉ connected w1) by (subst w1; rewrite E; exact H).
    assert (M1 : members "wizard" w1 = members "wizard" w) by (subst w1; now rewrite E).
    rewrite (join_defunct sid w1 H1). cbn [fst snd].
    rewrite (bool_decide_eq_false_2 _ H).
    rewrite bool_decide_eq_false_2 by tauto.
    split; [subst w1; now rewrite E |].
    split; [reflexivity |].
    split; [reflexivity |]. split; [reflexivity |]. split; [exact M1 |].
    split; [now rewrite M1 |].
    subst w1. rewrite E. cbn [fst]. apply new_effects_app. reflexivity.
Qed.

(** * Further properties of the handlers *)

(** ** The acknowledgement handler *)

(** X1. A participant acknowledgement is only logged: with a successful
    append the handler returns normally, emits nothing, and appends one
    record of type [ack] whose last two columns are the response and the
    quoted note. *)
Theorem ack_is_logged_and_not_relayed (sid : string) (data : gmap string pyval) (w : world) :
  log_row_ok w = true ->
  exists w',
    on_participant_ack sid data w = (w', Ok tt) /\
    emits (new_effects w w') = [] /\
    disk w' =
      Some (log_base w
            +:+ render {| timestamp := stamp w;
                          actionType := "ack";
                          actionId := py_str (dict_get data "id");
                          description := quoted "participant ack";
                          expectedEffect := quoted EmptyString;
                          participantResponse :=
                            py_str (dict_get_default data "response" (PyStr EmptyString));
                          observerNote :=
                            quoted (py_str (dict_get_default data "note" (PyStr EmptyString))) |}
            +:+ nl).
Proof.
  intros H.
  pose proof (dispatch_ok sid (ParticipantAck data) w H) as E.
  cbn [dispatch] in E. rewrite E. eexists. split; [reflexivity |].
  rewrite emits_logged, disk_logged, row_of_render. split; reflexivity.
Qed.

Lemma ack_is_logged_and_not_relayed_witness :
  log_row_ok fresh_world = true /\
  exists w',
    on_participant_ack "B" hearing_confirm fresh_world = (w', Ok tt) /\
    emits (new_effects fresh_world w') = [].
Proof.
  split; [reflexivity |].
  destruct (ack_is_logged_and_not_relayed "B" hearing_confirm fresh_world eq_refl)
    as (w' & E & N & _).
  exists w'. split; [exact E | exact N].
Defined.

(** X2. The relay never changes who is connected or who is in which room,
    whether its append succeeds or fails. *)
Theorem relay_leaves_membership_alone (sid : string) (ev : inbound) (w : world) :
  connected (fst (dispatch sid ev w)) = connected w /\
  rooms (fst (dispatch sid ev w)) = rooms w.
Proof.
  destruct (log_row_ok w) eqn:H.
  - rewrite (dispatch_ok sid ev w H). split; reflexivity.
  - rewrite (dispatch_fail sid ev w H).
    destruct (log_row_effects (row_of (stamp w) ev) w) as (fx & _ & _ & C & R & _).
    split; assumption.
Qed.

(** ** More on the log file *)

Section LogFileMore.

Ltac run_log :=
  lazy beta iota zeta delta
    [log_row py_open f_write os_path_exists storage_op opened written
     mbind M_bind bind mret M_ret ret record set_disk set_faults
     default from_option id negb
     disk faults clock connected rooms trace fst snd].

(** X4. When the creation of the file is interrupted between opening it
    and writing the header, [log_row] raises and leaves an empty file behind;
    the rows logged afterwards are appended to it as they are, and the
    header is never written. *)
Theorem interrupted_creation_leaves_no_header
    (row0 : string) (rows : list string) (fs : list bool) (w : world) :
  disk w = None ->
  faults w = false :: true :: fs ->
  forallb negb fs = true ->
  forallb (fun r => negb (has_newline r)) rows = true ->
  exists w1 w2 c,
    log_row row0 w = (w1, Raised OSError) /\
    disk w1 = Some EmptyString /\
    log_all rows w1 = (w2, Ok tt) /\
    disk w2 = Some c /\
    lines c = rows /\
    forallb (fun e => negb (is_create e)) (new_effects w1 w2) = true.
Proof.
  destruct w as [d fl cl cn rm tr]. cbn [disk faults]. intros -> -> F N.
  destruct (log_all_existing rows
              (World (Some EmptyString) fs cl cn rm (tr ++ [FOpen ModeW])) EmptyString)
    as (w2 & fx & E & D & T & Q); [reflexivity | exact F |].
  exists (World (Some EmptyString) fs cl cn rm (tr ++ [FOpen ModeW])), w2, (body rows).
  split; [run_log; reflexivity |]. split; [reflexivity |].
  split; [exact E |]. split; [exact D |]. split; [now apply lines_body |].
  now rewrite (new_effects_app _ _ _ T).
Qed.

Lemma interrupted_creation_leaves_no_header_witness :
  disk (World None [false; true] sample_clock ∅ ∅ []) = None /\
  faults (World None [false; true] sample_clock ∅ ∅ []) = [false; true] /\
  forallb negb [] = true /\
  forallb (fun r => negb (has_newline r)) ["first"; "second"] = true /\
  exists w1 w2 c,
    log_row "lost" (World None [false; true] sample_clock ∅ ∅ []) = (w1, Raised OSError) /\
    disk w1 = Some EmptyString /\
    log_all ["first"; "second"] w1 = (w2, Ok tt) /\
    disk w2 = Some c /\
    lines c = ["first"; "second"] /\
    forallb (fun e => negb (is_create e)) (new_effects w1 w2) = true.
Proof.
  split; [reflexivity |]. split; [reflexivity |]. split; [reflexivity |].
  split; [reflexivity |].
  apply (interrupted_creation_leaves_no_header "lost" ["first"; "second"] []
           (World None [false; true] sample_clock ∅ ∅ [])); reflexivity.
Defined.

End LogFileMore.

(** ** What a participant input forwards *)

Ltac all_lookups :=
  repeat first
    [ rewrite lookup_insert_eq
    | rewrite lookup_delete_eq
    | rewrite lookup_insert_ne by (intro; discriminate)
    | rewrite lookup_delete_ne by (intro; discriminate) ].

Ltac open_forward :=
  unfold input_row, input_forward, input_reply, confirm_forward,
    input_run_id, input_pid, input_ptype, input_value, input_client_ts,
    confirm_pid, confirm_response, dict_get, mkdict, list_to_map;
  cbn [foldr uncurry fst snd].

(** X5. A value that Python counts as false (zero, [False], an empty list)
    does not survive [payload.get('value') or '']: it is forwarded as the
    empty string and logged like an empty value. *)
Theorem falsy_input_value_is_dropped
    (ts : string) (payload : gmap string pyval) (v : pyval) :
  payload !! "value" = Some v ->
  py_bool v = false ->
  input_forward ts payload !! "value" = Some (PyStr EmptyString) /\
  input_row ts payload = input_row ts (<["value" := PyStr EmptyString]> payload).
Proof.
  intros Hv Hb. open_forward. all_lookups.
  rewrite Hv. cbn [default from_option id].
  replace (py_or v (PyStr EmptyString)) with (PyStr EmptyString)
    by (unfold py_or; now rewrite Hb).
  split; reflexivity.
Qed.

Lemma falsy_input_value_is_dropped_witness :
  zero_input !! "value" = Some (PyObj "0" false) /\
  py_bool (PyObj "0" false) = false /\
  input_forward "t" zero_input !! "value" = Some (PyStr EmptyString) /\
  input_row "t" zero_input = input_row "t" (<["value" := PyStr EmptyString]> zero_input).
Proof.
  split; [reflexivity |]. split; [reflexivity |].
  apply (falsy_input_value_is_dropped "t" zero_input (PyObj "0" false)); reflexivity.
Defined.

(** X6. The message forwarded for a participant input has exactly the six
    keys the handler writes, and the one forwarded for a confirmation
    exactly four: whatever else the event carried is not passed on. *)
Theorem forwards_carry_only_their_keys (ts : string) (d : gmap string pyval) :
  dom (input_forward ts d) =
    ({["runId"; "id"; "type"; "value"; "clientTs"; "serverTs"]} : gset string) /\
  dom (confirm_forward ts d) = ({["id"; "type"; "value"; "serverTs"]} : gset string).
Proof.
  unfold input_forward, confirm_forward, mkdict, list_to_map.
  cbn [foldr uncurry fst snd].
  rewrite !dom_insert_L, !dom_empty_L, !(right_id_L ∅ (∪)).
  split; reflexivity.
Qed.

(** X7. A field of a participant input that Python counts as true is
    forwarded to the operator room as it was received. *)
Theorem truthy_input_fields_are_forwarded
    (ts k : string) (payload : gmap string pyval) (v : pyval) :
  In k ["runId"; "id"; "type"; "value"; "clientTs"] ->
  payload !! k = Some v ->
  py_bool v = true ->
  input_forward ts payload !! k = Some v.
Proof.
  intros Hk Hv Hb.
  repeat (destruct Hk as [<- | Hk]; [open_forward; all_lookups; rewrite Hv;
    cbn [default from_option id]; unfold py_or; now rewrite Hb |]).
  destruct Hk.
Qed.

Lemma truthy_input_fields_are_forwarded_witness :
  In "value" ["runId"; "id"; "type"; "value"; "clientTs"] /\
  choice_input !! "value" = Some (PyStr "yes") /\
  py_bool (PyStr "yes") = true /\
  input_forward "t" choice_input !! "value" = Some (PyStr "yes").
Proof.
  assert (K : In "value" ["runId"; "id"; "type"; "value"; "clientTs"])
    by (right; right; right; left; reflexivity).
  split; [exact K |]. split; [reflexivity |]. split; [reflexivity |].
  apply (truthy_input_fields_are_forwarded "t" "value" choice_input (PyStr "yes"));
    first [exact K | reflexivity].
Defined.

(** ** Presence and joining *)

Section Presence.

Ltac run_presence :=
  cbv beta iota zeta delta
    [on_connect on_disconnect emit print perform record
     mbind M_bind bind disk faults clock connected rooms trace fst snd].

Lemma on_connect_run (sid : string) (w : world) :
  on_connect sid w =
    (extend [Print [PText "Client connected:"; PText sid];
             Emit "status" (mkdict [("msg", PyStr "connected"); ("sid", PyStr sid)])
               (ToSid sid);
             Emit "participant_status" (mkdict [("connected", PyTrue)]) (ToRoom "wizard")]
       w, Ok tt).
Proof. run_presence. unfold extend. now rewrite <- !app_assoc. Qed.

Lemma on_disconnect_run (sid : string) (w : world) :
  on_disconnect sid w =
    (extend [Print [PText "Client disconnected:"; PText sid];
             Emit "participant_status" (mkdict [("connected", PyFalse)]) (ToRoom "wizard")]
       w, Ok tt).
Proof. run_presence. unfold extend. now rewrite <- !app_assoc. Qed.

Lemma new_effects_extend (fx : list effect) (w : world) : new_effects w (extend fx w) = fx.
Proof. now apply new_effects_app. Qed.

End Presence.

(** X9. Connecting, disconnecting and joining the operator room are
    never written to the audit log and cannot fail on it: each of the three
    handlers returns normally, performs no storage operation and leaves the
    file and the fault oracle as they were, whatever the state of the
    storage. *)
Theorem presence_and_join_never_touch_the_log (sid : string) (w : world) :
  Forall
    (fun h : string -> M unit =>
       snd (h sid w) = Ok tt /\
       disk (fst (h sid w)) = disk w /\
       faults (fst (h sid w)) = faults w /\
       forallb (fun e => negb (is_storage e)) (new_effects w (fst (h sid w))) = true)
    [on_connect; on_disconnect; on_join_wizard].
Proof.
  constructor; [| constructor; [| constructor; [| constructor]]].
  - rewrite on_connect_run. cbn [fst snd]. rewrite new_effects_extend.
    repeat split; reflexivity.
  - rewrite on_disconnect_run. cbn [fst snd]. rewrite new_effects_extend.
    repeat split; reflexivity.
  - destruct (decide (sid ∈ connected w)) as [H | H].
    + rewrite (join_live sid w H). cbn [fst snd disk faults].
      erewrite new_effects_app by reflexivity. repeat split; reflexivity.
    + rewrite (join_defunct sid w H). cbn [fst snd].
      erewrite new_effects_app by reflexivity. repeat split; reflexivity.
Qed.

(** X10. What the operator room is told about a connection or a
    disconnection does not depend on the connection: the room receives one
    [participant_status] message that holds only the flag, so every client
    that connects, an operator console included, is announced in the same
    way and without its id. *)
Theorem presence_does_not_name_the_connection (sid sid' : string) (w : world) :
  List.filter is_room_emit (new_effects w (fst (on_connect sid w))) =
    [Emit "participant_status" (mkdict [("connected", PyTrue)]) (ToRoom "wizard")] /\
  List.filter is_room_emit (new_effects w (fst (on_disconnect sid w))) =
    [Emit "participant_status" (mkdict [("connected", PyFalse)]) (ToRoom "wizard")] /\
  List.filter is_room_emit (new_effects w (fst (on_connect sid w))) =
    List.filter is_room_emit (new_effects w (fst (on_connect sid' w))) /\
  List.filter is_room_emit (new_effects w (fst (on_disconnect sid w))) =
    List.filter is_room_emit (new_effects w (fst (on_disconnect sid' w))).
Proof.
  rewrite !on_connect_run, !on_disconnect_run. cbn [fst].
  rewrite !new_effects_extend. repeat split; reflexivity.
Qed.

(** ** Lines and line breaks *)

Section Lines.

Lemma lines_terminated_cons (a : string) : lines (a +:+ nl) <> [].
Proof.
  induction a as [|c a IH]; [discriminate |].
  rewrite append_cons. cbn [lines].
  destruct (Ascii.eqb c LF); [discriminate |].
  destruct (lines (a +:+ nl)); discriminate.
Qed.

Lemma lines_app_terminated (a b : string) :
  lines ((a +:+ nl) +:+ b) = lines (a +:+ nl) ++ lines b.
Proof.
  induction a as [|c a IH].
  - reflexivity.
  - rewrite !append_cons. cbn [lines].
    destruct (Ascii.eqb c LF); rewrite IH; [reflexivity |].
    pose proof (lines_terminated_cons a) as K.
    destruct (lines (a +:+ nl)); [congruence | reflexivity].
Qed.

Lemma line_terminated_spec (c : string) :
  line_terminated c = true -> c = EmptyString \/ exists a, c = a +:+ nl.
Proof.
  induction c as [|x c IH]; [now left |].
  destruct c as [|y c']; intros H; right.
  - cbn [line_terminated] in H. apply Ascii.eqb_eq in H. subst x.
    exists EmptyString. reflexivity.
  - change (line_terminated (String y c') = true) in H.
    destruct (IH H) as [E | [a E]]; [discriminate E |].
    exists (String x a). rewrite append_cons. now rewrite <- E.
Qed.

(** Appended to a line-terminated text, a row without line break and its
    line feed make one more line. *)
Lemma lines_snoc (c row : string) :
  line_terminated c = true ->
  has_newline row = false ->
  lines (c +:+ row +:+ nl) = lines c ++ [row].
Proof.
  intros T N. pose proof (lines_line row EmptyString N) as L.
  change (lines (row +:+ nl) = [row]) in L.
  destruct (line_terminated_spec c T) as [-> | [a ->]].
  - rewrite append_nil. exact L.
  - now rewrite lines_app_terminated, L.
Qed.

Lemma has_newline_app (a b : string) :
  has_newline (a +:+ b) = has_newline a || has_newline b.
Proof.
  induction a as [|x a IH]; [reflexivity |].
  rewrite append_cons. cbn [has_newline]. destruct (Ascii.eqb x LF); [reflexivity | exact IH].
Qed.

Lemma has_newline_digit (n : Z) (s : string) :
  has_newline (String (digit n) s) = has_newline s.
Proof.
  cbn [has_newline]. unfold digit.
  assert (H : 0 <= n mod 10 < 10) by (apply Z.mod_pos_bound; lia).
  assert (C : n mod 10 = 0 \/ n mod 10 = 1 \/ n mod 10 = 2 \/ n mod 10 = 3 \/
              n mod 10 = 4 \/ n mod 10 = 5 \/ n mod 10 = 6 \/ n mod 10 = 7 \/
              n mod 10 = 8 \/ n mod 10 = 9) by lia.
  repeat (destruct C as [C | C]; [rewrite C; reflexivity |]).
  rewrite C; reflexivity.
Qed.

(** A time stamp holds no line break. *)
Lemma has_newline_stamp (d : datetime) : has_newline (isoformat d +:+ "Z") = false.
Proof.
  unfold isoformat. destruct (microsecond d =? 0);
    unfold pad6, pad4, pad2;
    rewrite ?has_newline_app, ?has_newline_digit; reflexivity.
Qed.

Lemma has_newline_quoted (s : string) : has_newline (quoted s) = has_newline s.
Proof.
  unfold quoted. rewrite !has_newline_app.
  change (has_newline q) with false. now rewrite orb_false_r.
Qed.

End Lines.

(** ** Triggers and confirmations, column by column *)

(** C6. For a TriggerAction whose type is the string [k] and whose id is
    the string [i], sent by a connected client, with a successful append:
    exactly one record is appended, and it is the line whose action_type
    column is [k] and whose action_id column is [i]; the data is emitted
    unchanged as an [action] broadcast, which reaches every connected
    client, the sender among them; and the sender is sent the reply with
    status [sent] and the id. *)
Theorem trigger_is_logged_and_broadcast
    (sid : string) (data : gmap string pyval) (k i : string) (w : world) :
  data !! "type" = Some (PyStr k) ->
  data !! "id" = Some (PyStr i) ->
  sid ∈ connected w ->
  log_row_ok w = true ->
  let r := {| timestamp := stamp w;
              actionType := k;
              actionId := i;
              description :=
                quoted (py_str (dict_get_default data "payload" (PyStr EmptyString)));
              expectedEffect :=
                quoted (py_str (dict_get_default data "note" (PyStr EmptyString)));
              participantResponse := EmptyString;
              observerNote := quoted EmptyString |} in
  exists w',
    handle_trigger sid data w = (w', Ok tt) /\
    disk w' = Some (log_base w +:+ render r +:+ nl) /\
    appends (new_effects w w') = [FWrite ModeA (render r +:+ nl)] /\
    emits (new_effects w w') =
      [Emit "action" data Broadcast;
       Emit "ack" (mkdict [("status", PyStr "sent"); ("id", PyStr i)]) (ToSid sid)] /\
    recipients Broadcast w' = connected w /\
    sid ∈ recipients Broadcast w'.
Proof.
  intros Hk Hi Hs H r.
  pose proof (dispatch_ok sid (TriggerAction data) w H) as E.
  cbn [dispatch] in E. rewrite E.
  assert (R : record_of (stamp w) (TriggerAction data) = r).
  { subst r. cbn [record_of]. unfold trigger_record.
    now rewrite (dict_get_some _ _ _ Hk), (dict_get_some _ _ _ Hi). }
  eexists. split; [reflexivity |].
  rewrite disk_logged, appends_logged, emits_logged, row_of_render, R.
  cbn [sends]. rewrite (dict_get_some _ _ _ Hi).
  repeat split; try reflexivity. exact Hs.
Qed.

Lemma trigger_is_logged_and_broadcast_witness :
  audio_trigger !! "type" = Some (PyStr "audio") /\
  audio_trigger !! "id" = Some (PyStr "overview_01") /\
  "A" ∈ connected fresh_world /\
  log_row_ok fresh_world = true /\
  exists w',
    handle_trigger "A" audio_trigger fresh_world = (w', Ok tt) /\
    emits (new_effects fresh_world w') =
      [Emit "action" audio_trigger Broadcast;
       Emit "ack" (mkdict [("status", PyStr "sent"); ("id", PyStr "overview_01")])
         (ToSid "A")] /\
    "A" ∈ recipients Broadcast w'.
Proof.
  assert (A : "A" ∈ connected fresh_world)
    by (apply elem_of_union; left; now apply elem_of_singleton).
  split; [reflexivity |]. split; [reflexivity |]. split; [exact A |].
  split; [reflexivity |].
  destruct (trigger_is_logged_and_broadcast "A" audio_trigger "audio" "overview_01"
              fresh_world eq_refl eq_refl A eq_refl)
    as (w' & E & _ & _ & M & _ & S).
  exists w'. split; [exact E |]. split; [exact M | exact S].
Defined.

(** C7, as the spec states it, fails in three ways: at the empty id,
    which the record and the forwarded message replace by [confirm]; at a
    note that holds a line break, for which the one append adds two lines to
    the file; and on a file whose last line is not closed, to which the
    append adds no line. *)
Lemma confirm_claim_fails_on_empty_id_and_on_line_break :
  ~ (forall (ts i r : string),
       let data := mkdict [("id", PyStr i); ("response", PyStr r)] in
       actionId (confirm_record ts data) = i /\
       participantResponse (confirm_record ts data) = r /\
       confirm_forward ts data !! "id" = Some (PyStr i)) /\
  ~ (forall (i r note : string),
       i <> EmptyString ->
       exists c,
         disk (fst (on_participant_confirm "B"
                      (mkdict [("id", PyStr i); ("response", PyStr r); ("note", PyStr note)])
                      fresh_world)) = Some c /\
         length (lines c) = 2%nat) /\
  ~ (forall (i r old : string) (w : world),
       i <> EmptyString ->
       disk w = Some old ->
       log_row_ok w = true ->
       exists c,
         disk (fst (on_participant_confirm "B"
                      (mkdict [("id", PyStr i); ("response", PyStr r)]) w)) = Some c /\
         length (lines c) = S (length (lines old))).
Proof.
  split; [| split].
  - intros C. destruct (C EmptyString EmptyString "confirmed") as [A _].
    vm_compute in A. discriminate A.
  - intros C.
    destruct (C "confirm_hearing" "confirmed" ("a" +:+ nl +:+ "b")) as (c & D & L);
      [discriminate |].
    vm_compute in D. injection D as <-. vm_compute in L. discriminate L.
  - intros C.
    destruct (C "confirm_hearing" "confirmed" "torn"
                (World (Some "torn") [] sample_clock ∅ ∅ []))
      as (c & D & L); [discriminate | reflexivity | reflexivity |].
    vm_compute in D. injection D as <-. vm_compute in L. discriminate L.
Qed.

(** C7, amended. For a ParticipantConfirm whose id is a non-empty string
    [i] and whose response is the string [r], where id, response and note
    hold no line break, with a successful append to a log that is missing,
    empty or ends with a line feed: exactly one line is added to the file,
    after the lines already there (the header, when the file had to be
    created), and it is the line with actionType participant_confirm,
    actionId [i] and participantResponse [r]; the only emit of the run is the
    [participant_input] message with that id, type [confirm], value [r] and
    the time stamp, sent to the operator room, whose members receive it; no
    reply goes to the sender. *)
Theorem confirm_is_logged_and_forwarded
    (sid : string) (data : gmap string pyval) (i r : string) (w : world) :
  data !! "id" = Some (PyStr i) ->
  i <> EmptyString ->
  data !! "response" = Some (PyStr r) ->
  has_newline i = false ->
  has_newline r = false ->
  has_newline (py_str (confirm_note data)) = false ->
  line_terminated (log_base w) = true ->
  log_row_ok w = true ->
  let rec := {| timestamp := stamp w;
                actionType := "participant_confirm";
                actionId := i;
                description := quoted "participant confirmed hearing";
                expectedEffect := quoted EmptyString;
                participantResponse := r;
                observerNote := quoted (py_str (confirm_note data)) |} in
  exists w' c,
    on_participant_confirm sid data w = (w', Ok tt) /\
    disk w' = Some c /\
    c = log_base w +:+ render rec +:+ nl /\
    lines c = lines (log_base w) ++ [render rec] /\
    appends (new_effects w w') = [FWrite ModeA (render rec +:+ nl)] /\
    emits (new_effects w w') =
      [Emit "participant_input"
         (mkdict [("id", PyStr i); ("type", PyStr "confirm"); ("value", PyStr r);
                  ("serverTs", PyStr (stamp w))])
         (ToRoom "wizard")] /\
    recipients (ToRoom "wizard") w' = members "wizard" w.
Proof.
  intros Hi Hne Hr Ni Nr Nn T H rec.
  pose proof (dispatch_ok sid (ParticipantConfirm data) w H) as E.
  cbn [dispatch] in E. rewrite E.
  assert (R : record_of (stamp w) (ParticipantConfirm data) = rec).
  { subst rec. cbn [record_of]. unfold confirm_record, confirm_pid, confirm_response.
    rewrite (dict_get_some _ _ _ Hi), (dict_get_some _ _ _ Hr).
    now rewrite (py_or_solid i _ Hne), py_or_str. }
  assert (N : has_newline (render rec) = false).
  { subst rec. unfold render, join.
    cbn [String.concat timestamp actionType actionId description expectedEffect
         participantResponse observerNote].
    unfold stamp.
    rewrite has_newline_app, has_newline_stamp.
    rewrite !has_newline_app, !has_newline_quoted, Ni, Nr, Nn.
    reflexivity. }
  exists (extend (sends sid (stamp w) (ParticipantConfirm data))
            (logged (row_of (stamp w) (ParticipantConfirm data)) w)),
    (log_base w +:+ render rec +:+ nl).
  split; [reflexivity |].
  rewrite disk_logged, appends_logged, emits_logged, row_of_render, R.
  split; [reflexivity |]. split; [reflexivity |].
  split; [apply (lines_snoc _ _ T N) |].
  cbn [sends]. unfold confirm_forward, confirm_pid, confirm_response.
  rewrite (dict_get_some _ _ _ Hi), (dict_get_some _ _ _ Hr).
  rewrite (py_or_solid i _ Hne), py_or_str.
  repeat split; reflexivity.
Qed.

Lemma confirm_is_logged_and_forwarded_witness :
  hearing_confirm !! "id" = Some (PyStr "confirm_hearing") /\
  "confirm_hearing" <> EmptyString /\
  hearing_confirm !! "response" = Some (PyStr "confirmed") /\
  has_newline "confirm_hearing" = false /\
  has_newline "confirmed" = false /\
  has_newline (py_str (confirm_note hearing_confirm)) = false /\
  line_terminated (log_base fresh_world) = true /\
  log_row_ok fresh_world = true /\
  exists w' c,
    on_participant_confirm "B" hearing_confirm fresh_world = (w', Ok tt) /\
    disk w' = Some c /\
    length (lines c) = 2%nat.
Proof.
  split; [reflexivity |]. split; [discriminate |]. split; [reflexivity |].
  split; [reflexivity |]. split; [reflexivity |]. split; [reflexivity |].
  split; [reflexivity |]. split; [reflexivity |].
  destruct (confirm_is_logged_and_forwarded "B" hearing_confirm "confirm_hearing"
              "confirmed" fresh_world eq_refl ltac:(discriminate) eq_refl eq_refl eq_refl
              eq_refl eq_refl eq_refl)
    as (w' & c & E & D & _ & L & _).
  exists w', c. split; [exact E |]. split; [exact D |].
  rewrite L. reflexivity.
Defined.

(** ** One append, one line *)

(** C8, as the spec states it, fails in three ways.  A row that holds a
    line break adds more than one line, and the extra line can be a copy of
    the header.  After a creation interrupted between opening the file and
    writing the header, the file exists and the next successful append
    leaves the row as its first line, with no header.  And a file whose last
    line is not closed gets no new line from an append: the row is glued to
    that line. *)
Lemma log_claim_fails_on_line_break_and_on_broken_files :
  ~ (forall (row : string) (rows : list string) (w : world),
       disk w = None ->
       forallb negb (faults w) = true ->
       exists c,
         disk (fst (log_all (row :: rows) w)) = Some c /\
         length (lines c) = S (length (row :: rows)) /\
         ~ In header_text (tl (lines c))) /\
  ~ (forall (row : string) (w : world),
       is_Some (disk w) ->
       log_row_ok w = true ->
       exists c,
         disk (fst (log_row row w)) = Some c /\
         head (lines c) = Some header_text) /\
  ~ (forall (row old : string) (w : world),
       disk w = Some old ->
       log_row_ok w = true ->
       exists c,
         disk (fst (log_row row w)) = Some c /\
         length (lines c) = S (length (lines old))).
Proof.
  split; [| split].
  - intros C.
    destruct (C ("x" +:+ nl +:+ header_text) [] fresh_world eq_refl eq_refl)
      as (c & D & L & _).
    vm_compute in D. injection D as <-. vm_compute in L. discriminate L.
  - intros C.
    destruct (C "first"
                (fst (log_row "lost" (World None [false; true] sample_clock ∅ ∅ []))))
      as (c & D & L); [eexists; reflexivity | reflexivity |].
    vm_compute in D. injection D as <-. vm_compute in L. discriminate L.
  - intros C.
    destruct (C "first" "torn" (World (Some "torn") [] sample_clock ∅ ∅ [])
                eq_refl eq_refl)
      as (c & D & L).
    vm_compute in D. injection D as <-. vm_compute in L. discriminate L.
Qed.

(** C8, amended. When the append succeeds, the row holds no line break
    and the file is missing, empty or ends with a line feed: a missing file
    is first created and given exactly the header line, an existing file is
    only opened for appending; the lines of the file afterwards are the lines
    it had (the header alone, when it had to be created) followed by one
    more line, the row.  So the first line of the file stays what it was,
    and the header occurs among the lines afterwards only where it occurred
    before, unless the row is the header text itself. *)
Theorem log_row_adds_one_line_below_the_header (row : string) (w : world) :
  log_row_ok w = true ->
  has_newline row = false ->
  line_terminated (log_base w) = true ->
  let before := match disk w with
                | None => [header_text]
                | Some old => lines old
                end in
  exists w' c,
    log_row row w = (w', Ok tt) /\
    disk w' = Some c /\
    lines c = before ++ [row] /\
    new_effects w w' =
      match disk w with
      | None => [FOpen ModeW; FWrite ModeW (header_text +:+ nl)]
      | Some _ => []
      end ++ [FOpen ModeA; FWrite ModeA (row +:+ nl)] /\
    (forall l, head before = Some l -> head (lines c) = Some l) /\
    (In header_text (lines c) -> In header_text before \/ row = header_text).
Proof.
  intros H N T before.
  assert (B : lines (log_base w) = before).
  { subst before. unfold log_base. destruct (disk w); [reflexivity |].
    cbn [default from_option id].
    pose proof (lines_line header_text EmptyString eq_refl) as L. exact L. }
  assert (L : lines (log_base w +:+ row +:+ nl) = before ++ [row])
    by (rewrite <- B; apply (lines_snoc _ _ T N)).
  exists (logged row w), (log_base w +:+ row +:+ nl).
  split; [apply (log_row_ok_spec row w H) |].
  split; [reflexivity |]. split; [exact L |].
  split; [| split].
  - apply new_effects_app. unfold logged, log_setup. cbn [trace].
    destruct (disk w); reflexivity.
  - intros l Hl. rewrite L. destruct before; [discriminate Hl | exact Hl].
  - rewrite L. intros I. apply in_app_or in I as [I | [I | []]]; [now left | now right].
Qed.

Lemma log_row_adds_one_line_below_the_header_witness :
  log_row_ok fresh_world = true /\
  has_newline "first" = false /\
  line_terminated (log_base fresh_world) = true /\
  exists w' c,
    log_row "first" fresh_world = (w', Ok tt) /\
    disk w' = Some c /\
    lines c = [header_text; "first"].
Proof.
  split; [reflexivity |]. split; [reflexivity |]. split; [reflexivity |].
  destruct (log_row_adds_one_line_below_the_header "first" fresh_world
              eq_refl eq_refl eq_refl)
    as (w' & c & E & D & L & _).
  exists w', c. split; [exact E |]. split; [exact D | exact L].
Defined.

(** X3. [log_row] never truncates or rewrites an existing log: whether
    the call succeeds or raises, the old content is still the beginning of
    the file, and after a success what follows it is the row and a line
    feed. *)
Theorem existing_log_is_never_truncated (row c : string) (w : world) :
  disk w = Some c ->
  exists suffix,
    disk (fst (log_row row w)) = Some (c +:+ suffix) /\
    (if log_row_ok w then suffix = row +:+ nl else True).
Proof.
  intros D. destruct (log_row_ok w) eqn:H.
  - exists (row +:+ nl). rewrite (log_row_ok_spec row w H).
    unfold logged, log_base. cbn [fst disk]. rewrite D. split; reflexivity.
  - exists EmptyString. split; [| exact I].
    destruct w as [d fs cl cn rm tr]. cbn [disk] in D. subst d.
    replace (c +:+ EmptyString) with c
      by (clear; induction c as [|x c IH]; [reflexivity |];
          rewrite append_cons; now rewrite <- IH).
    destruct fs as [|[|] [|[|] fs]]; try discriminate H;
      lazy beta iota zeta delta
        [log_row py_open f_write os_path_exists storage_op opened written
         mbind M_bind bind mret M_ret ret record set_disk set_faults
         default from_option id negb disk faults fst snd];
      reflexivity.
Qed.

Lemma existing_log_is_never_truncated_witness :
  disk (World (Some "old") [] sample_clock ∅ ∅ []) = Some "old" /\
  exists suffix,
    disk (fst (log_row "new" (World (Some "old") [] sample_clock ∅ ∅ []))) =
      Some ("old" +:+ suffix) /\
    (if log_row_ok (World (Some "old") [] sample_clock ∅ ∅ [])
     then suffix = "new" +:+ nl else True).
Proof.
  split; [reflexivity |].
  apply (existing_log_is_never_truncated "new" "old"
           (World (Some "old") [] sample_clock ∅ ∅ [])).
  reflexivity.
Defined.

(** ** A trigger without an id *)

(** X8. [handle_trigger] applies no default to a missing id: with a
    successful append the line appended has the text [None] in its
    action_id column, the data is still broadcast unchanged, and the sender
    is acknowledged with the id [None]. *)
Theorem trigger_without_id_is_logged_as_None
    (sid : string) (data : gmap string pyval) (w : world) :
  data !! "id" = None ->
  log_row_ok w = true ->
  let r := {| timestamp := stamp w;
              actionType := py_str (dict_get data "type");
              actionId := "None";
              description :=
                quoted (py_str (dict_get_default data "payload" (PyStr EmptyString)));
              expectedEffect :=
                quoted (py_str (dict_get_default data "note" (PyStr EmptyString)));
              participantResponse := EmptyString;
              observerNote := quoted EmptyString |} in
  exists w',
    handle_trigger sid data w = (w', Ok tt) /\
    disk w' = Some (log_base w +:+ render r +:+ nl) /\
    emits (new_effects w w') =
      [Emit "action" data Broadcast;
       Emit "ack" (mkdict [("status", PyStr "sent"); ("id", PyNone)]) (ToSid sid)].
Proof.
  intros Hi H r.
  pose proof (dispatch_ok sid (TriggerAction data) w H) as E.
  cbn [dispatch] in E. rewrite E.
  assert (I : dict_get data "id" = PyNone) by (unfold dict_get; now rewrite Hi).
  assert (R : record_of (stamp w) (TriggerAction data) = r)
    by (subst r; cbn [record_of]; unfold trigger_record; now rewrite I).
  eexists. split; [reflexivity |].
  rewrite disk_logged, emits_logged, row_of_render, R.
  cbn [sends]. rewrite I. split; reflexivity.
Qed.

Lemma trigger_without_id_is_logged_as_None_witness :
  anonymous_trigger !! "id" = None /\
  log_row_ok fresh_world = true /\
  exists w',
    handle_trigger "A" anonymous_trigger fresh_world = (w', Ok tt) /\
    emits (new_effects fresh_world w') =
      [Emit "action" anonymous_trigger Broadcast;
       Emit "ack" (mkdict [("status", PyStr "sent"); ("id", PyNone)]) (ToSid "A")].
Proof.
  split; [reflexivity |]. split; [reflexivity |].
  destruct (trigger_without_id_is_logged_as_None "A" anonymous_trigger fresh_world
              eq_refl eq_refl)
    as (w' & E & _ & M).
  exists w'. split; [exact E | exact M].
Defined.

(** ** Unquoted columns *)

(** X11. [handle_trigger] writes the type and the id as they come,
    unquoted: a comma inside the type cannot be told from the separator, and
    an event of type [a,b] and id [c] is logged as the very line of an event
    of type [a] and id [b,c]. *)
Theorem comma_in_type_is_read_as_id
    (ts a b c : string) (data : gmap string pyval) :
  trigger_row ts (<["type" := PyStr (a +:+ "," +:+ b)]> (<["id" := PyStr c]> data)) =
  trigger_row ts (<["type" := PyStr a]> (<["id" := PyStr (b +:+ "," +:+ c)]> data)).
Proof.
  unfold trigger_row, dict_get, dict_get_default. all_lookups.
  cbn [default from_option id py_str].
  now rewrite !append_assoc.
Qed.

(** ** Events in sequence *)

(** X12. With a sound storage two events handled one after the other,
    the clock having moved to [d] in between, are logged in that order: the
    file holds what it held (or the header), then the row of the first event
    with the first time stamp, then the row of the second with the time
    stamp of [d]; exactly these two appends are performed. *)
Theorem events_are_logged_in_arrival_order
    (sid1 sid2 : string) (ev1 ev2 : inbound) (d : datetime) (w : world) :
  forallb negb (faults w) = true ->
  exists w1 w2,
    dispatch sid1 ev1 w = (w1, Ok tt) /\
    dispatch sid2 ev2 (tick d w1) = (w2, Ok tt) /\
    disk w2 =
      Some ((log_base w +:+ row_of (stamp w) ev1 +:+ nl)
            +:+ row_of (isoformat d +:+ "Z") ev2 +:+ nl) /\
    appends (new_effects w w2) =
      [FWrite ModeA (row_of (stamp w) ev1 +:+ nl);
       FWrite ModeA (row_of (isoformat d +:+ "Z") ev2 +:+ nl)].
Proof.
  intros F.
  assert (K : log_row_ok w = true)
    by (unfold log_row_ok; apply (forallb_take_drop _ _ F)).
  set (w1 := extend (sends sid1 (stamp w) ev1) (logged (row_of (stamp w) ev1) w)).
  assert (K1 : log_row_ok (tick d w1) = true).
  { unfold log_row_ok. apply forallb_take_drop.
    subst w1. unfold tick, extend, logged. cbn [faults].
    apply (forallb_take_drop _ _ F). }
  exists w1, (extend (sends sid2 (stamp (tick d w1)) ev2)
                (logged (row_of (stamp (tick d w1)) ev2) (tick d w1))).
  split; [apply (dispatch_ok sid1 ev1 w K) |].
  split; [apply (dispatch_ok sid2 ev2 (tick d w1) K1) |].
  split; [reflexivity |].
  unfold appends. unfold new_effects, extend, logged. cbn [trace].
  subst w1. unfold tick, stamp, extend, logged, log_setup. cbn [trace disk clock].
  rewrite <- !app_assoc. rewrite drop_app_length.
  rewrite !List.filter_app.
  assert (Q1 : forall fx, forallb (fun e => negb (is_append e)) fx = true ->
                          List.filter is_append fx = []).
  { induction fx as [|e fx IH]; [reflexivity |].
    cbn [List.filter forallb]. destruct (is_append e); cbn [negb andb];
      [discriminate | exact IH]. }
  rewrite (Q1 _ (sends_no_append sid1 _ ev1)).
  rewrite (Q1 _ (sends_no_append sid2 _ ev2)).
  destruct (disk w); reflexivity.
Qed.

Lemma events_are_logged_in_arrival_order_witness :
  forallb negb (faults fresh_world) = true /\
  exists w1 w2,
    dispatch "A" (TriggerAction audio_trigger) fresh_world = (w1, Ok tt) /\
    dispatch "B" (ParticipantConfirm hearing_confirm)
      (tick (Datetime 2024 5 17 9 30 42 0) w1) = (w2, Ok tt).
Proof.
  split; [reflexivity |].
  destruct (events_are_logged_in_arrival_order "A" "B" (TriggerAction audio_trigger)
              (ParticipantConfirm hearing_confirm) (Datetime 2024 5 17 9 30 42 0)
              fresh_world eq_refl)
    as (w1 & w2 & E1 & E2 & _).
  exists w1, w2. split; [exact E1 | exact E2].
Defined.
